(** * freecurrencyapi-go: request encoders, response mappers and the
    endpoint operations of the v2 client

  A shallow embedding of [requests.go], [responses.go] and
  [freecurrencyapi_v2.go].  Go maps are finite maps from [string]
  that may also be [nil]; Go's [int] is [Z]; the pair [(T, error)] a
  Go function returns is a Rocq pair whose second component is
  [None] for a [nil] error. *)

From Stdlib Require Import ZArith String Ascii DecimalString PrimFloat.
From stdpp Require Import base option list strings gmap fin_maps.

Local Open Scope string_scope.

(** ** Go maps

  A value of type [map[string]V] is either [nil] or a reference to a
  table.  Reading, [len] and [range] treat [nil] as the empty table;
  [reflect.DeepEqual] (used by the tests) tells the two apart. *)

Abbreviation gomap V := (option (gmap string V)).

Module GoMap.

(** The [nil] map. *)
Definition nil {V : Type} : gomap V := None.

(** The entries a [range] loop visits. *)
Definition entries {V : Type} (m : gomap V) : gmap string V :=
  default ∅ m.

(** [len(m)]. *)
Definition len {V : Type} (m : gomap V) : nat := size (entries m).

(** [m[k]]: the zero value of [V] when [k] is absent. *)
Definition index {V : Type} (zero : V) (m : gomap V) (k : string) : V :=
  default zero (entries m !! k).

(** The key order of [for key := range m] is unspecified and differs
    from run to run.  [seed] stands for the run-time's choice: the
    loop starts with the key at position [seed mod len(m)] of the
    key list, and visits nothing when the map has no entry. *)
Definition keys {V : Type} (m : gomap V) : list string :=
  (map_to_list (entries m)).*1.

Definition range_first {V : Type} (seed : nat) (m : gomap V)
  : option string :=
  keys m !! (seed mod length (keys m)).

End GoMap.

(** ** [strings.Join]

  Zero elements give the empty string, one element gives itself;
  otherwise the first element is written and then, for each further
  element, the separator followed by the element. *)

Definition Join (elems : list string) (sep : string) : string :=
  match elems with
  | [] => ""
  | [e] => e
  | e :: rest => fold_left (fun b s => b ++ sep ++ s) rest e
  end.

(** The spec's words for the same thing: the elements in list order
  with the separator between neighbours. *)
Fixpoint joined_in_order (sep : string) (elems : list string) : string :=
  match elems with
  | [] => ""
  | [e] => e
  | e :: rest => e ++ sep ++ joined_in_order sep rest
  end.

(** ** [time.Time] under the layout ["2006-01-02"]

  The layout reads only the civil date of the instant, so a [Time]
  is represented by the year, month and day that [t.Date()] reports.
  The zero [Time] is January 1 of year 1. *)

Module GoTime.

Record t : Type := mk { year : Z; month : Z; day : Z }.

Definition zero : t := mk 1 1 1.

(** The decimal digits of a natural number. *)
Definition digits (n : N) : string :=
  NilZero.string_of_uint (N.to_uint n).

Fixpoint zeros (n : nat) : string :=
  match n with
  | O => ""
  | S n' => String "0" (zeros n')
  end.

(** [appendInt(b, x, width)]: a minus sign for a negative [x], then
    the digits of [|x|] padded on the left with zeros to [width]. *)
Definition appendInt (x : Z) (width : nat) : string :=
  let ds := digits (Z.abs_N x) in
  let body := zeros (width - String.length ds) ++ ds in
  if (x <? 0)%Z then String "-" body else body.

(** [t.Format("2006-01-02")]: [stdLongYear], ["-"], [stdZeroMonth],
    ["-"], [stdZeroDay]. *)
Definition Format_2006_01_02 (d : t) : string :=
  appendInt (year d) 4 ++ "-" ++ appendInt (month d) 2 ++ "-"
    ++ appendInt (day d) 2.

(** The shape YYYY-MM-DD: four digits, a dash, two digits, a dash, two
  digits. *)
Definition is_digit (a : ascii) : bool :=
  let n := nat_of_ascii a in ((48 <=? n) && (n <=? 57))%nat.

Fixpoint digits_only (width : nat) (s : string) : bool :=
  match width, s with
  | O, EmptyString => true
  | S width', String a s' => is_digit a && digits_only width' s'
  | _, _ => false
  end.

Definition is_YYYY_MM_DD (s : string) : bool :=
  match s with
  | String y1 (String y2 (String y3 (String y4 (String "-"
    (String m1 (String m2 (String "-" rest))))))) =>
  digits_only 4 (String y1 (String y2 (String y3 (String y4 ""))))
  && digits_only 2 (String m1 (String m2 ""))
  && digits_only 2 rest
  | _ => false
  end.

(** [f] holds of every integer from 0 up to, not including, [n]. *)
Definition all_below (n : Z) (f : Z → bool) : bool :=
  forallb (fun i => f (Z.of_nat i)) (seq 0 (Z.to_nat n)).

End GoTime.

(** ** requests.go *)

Module LatestRequest.

Record t : Type := mk { BaseCurrency : string; Currencies : list string }.

Definition toParams (r : t) : gmap string string :=
  let p : gmap string string := ∅ in
  let p :=
    if bool_decide (BaseCurrency r ≠ "")
    then <["base_currency" := BaseCurrency r]> p else p in
  let p :=
    if bool_decide (0 < length (Currencies r))
    then <["currencies" := Join (Currencies r) ","]> p else p in
  p.

End LatestRequest.

Module CurrenciesRequest.

Record t : Type := mk { Currencies : list string }.

Definition toParams (r : t) : gmap string string :=
  let p : gmap string string := ∅ in
  let p :=
    if bool_decide (0 < length (Currencies r))
    then <["currencies" := Join (Currencies r) ","]> p else p in
  p.

End CurrenciesRequest.

Module HistoricalRequest.

Record t : Type :=
  mk { Date : GoTime.t; BaseCurrency : string; Currencies : list string }.

Definition toParams (r : t) : gmap string string :=
  let p : gmap string string :=
    {[ "date" := GoTime.Format_2006_01_02 (Date r) ]} in
  let p :=
    if bool_decide (BaseCurrency r ≠ "")
    then <["base_currency" := BaseCurrency r]> p else p in
  let p :=
    if bool_decide (0 < length (Currencies r))
    then <["currencies" := Join (Currencies r) ","]> p else p in
  p.

End HistoricalRequest.

(** ** responses.go

    [float64] is IEEE 754 binary64; the rates are carried around and
    never computed with. *)

Definition float64 : Type := PrimFloat.float.

Module latestResponse.
Record t : Type := mk { Data : gomap float64 }.
End latestResponse.

Module LatestResponse.
Record t : Type := mk { Rates : gomap float64 }.
(** [LatestResponse{}] *)
Definition zero : t := mk GoMap.nil.
End LatestResponse.

Definition toLatestResponse (r : latestResponse.t) : LatestResponse.t :=
  LatestResponse.mk (latestResponse.Data r).

Module currencyResponseItem.
Record t : Type := mk {
  Symbol : string;
  Name : string;
  SymbolNative : string;
  DecimalDigits : Z;
  Rounding : Z;
  Code : string;
  NamePlural : string
}.
End currencyResponseItem.

Module currenciesResponse.
Record t : Type := mk { Data : gomap currencyResponseItem.t }.
End currenciesResponse.

Module CurrencyItem.
Record t : Type := mk {
  Symbol : string;
  Name : string;
  SymbolNative : string;
  DecimalDigits : Z;
  Rounding : Z;
  Code : string;
  NamePlural : string
}.
End CurrencyItem.

Module CurrenciesResponse.
Record t : Type := mk { Currencies : gomap CurrencyItem.t }.
(** [CurrenciesResponse{}] *)
Definition zero : t := mk GoMap.nil.
End CurrenciesResponse.

(** The body of the loop of [toCurrenciesResponse]: the item stored
    under [key]. *)
Definition toCurrencyItem (value : currencyResponseItem.t) : CurrencyItem.t :=
  CurrencyItem.mk
    (currencyResponseItem.Symbol value)
    (currencyResponseItem.Name value)
    (currencyResponseItem.SymbolNative value)
    (currencyResponseItem.DecimalDigits value)
    (currencyResponseItem.Rounding value)
    (currencyResponseItem.Code value)
    (currencyResponseItem.NamePlural value).

Definition toCurrenciesResponse (r : currenciesResponse.t)
  : CurrenciesResponse.t :=
  (* make(map[string]CurrencyItem, len(r.Data)) *)
  let currencies : gmap string CurrencyItem.t := ∅ in
  let currencies :=
    map_fold
      (fun key value currencies => <[key := toCurrencyItem value]> currencies)
      currencies (GoMap.entries (currenciesResponse.Data r)) in
  CurrenciesResponse.mk (Some currencies).

Module historicalResponse.
Record t : Type := mk { Data : gomap (gomap float64) }.
End historicalResponse.

Module HistoricalResponse.
Record t : Type := mk { Rates : gomap float64 }.
(** [HistoricalResponse{}] *)
Definition zero : t := mk GoMap.nil.
End HistoricalResponse.

(** [seed] is the run-time's choice of where the [range] loop starts;
    the loop body runs at most once because of the [break]. *)
Definition toHistoricalResponse (seed : nat) (r : historicalResponse.t)
  : HistoricalResponse.t :=
  let firstKey := "" in
  let firstKey :=
    match GoMap.range_first seed (historicalResponse.Data r) with
    | Some key => key
    | None => firstKey
    end in
  HistoricalResponse.mk
    (GoMap.index GoMap.nil (historicalResponse.Data r) firstKey).

Module statusResponse.
Record month : Type := mkMonth { Total : Z; Used : Z; Remaining : Z }.
Record quotas : Type := mkQuotas { Month : month }.
Record t : Type := mk { Quotas : quotas }.
End statusResponse.

Module StatusItem.
Record t : Type := mk { Total : Z; Used : Z; Remaining : Z }.
End StatusItem.

Module StatusResponse.
Record t : Type := mk { Month : StatusItem.t }.
(** [StatusResponse{}] *)
Definition zero : t := mk (StatusItem.mk 0 0 0).
End StatusResponse.

Definition toStatusResponse (r : statusResponse.t) : StatusResponse.t :=
  StatusResponse.mk
    (StatusItem.mk
       (statusResponse.Total (statusResponse.Month (statusResponse.Quotas r)))
       (statusResponse.Used (statusResponse.Month (statusResponse.Quotas r)))
       (statusResponse.Remaining
          (statusResponse.Month (statusResponse.Quotas r)))).

(** ** freecurrencyapi_v2.go *)

(** Go's [error] values: the two sentinels of the package, and the
    errors that [net/http] and [encoding/json] hand back, told apart
    by their text. *)
Inductive error : Type :=
| ErrInvalidStatusCode
| ErrUnauthorized
| library_error (text : string).

(** What a Go function of type [(T, error)] gives when exactly one of
    the two is meaningful. *)
Inductive result (T : Type) : Type :=
| Ok (x : T)
| Err (err : error).

Arguments Ok {T} x.
Arguments Err {T} err.

Definition MethodGet : string := "GET".
Definition StatusOK : Z := 200.
Definition StatusUnauthorized : Z := 401.

(** [url.Values] and its [Add]: [v[key] = append(v[key], value)]. *)
Definition Values : Type := gmap string (list string).

Definition Values_Add (q : Values) (key value : string) : Values :=
  <[key := (default [] (q !! key) ++ [value])%list]> q.

(** The parts of [context], [io], [net/url] and [net/http] the client
    calls.  [http_Client] is a non-nil [*http.Client]. *)
Class Net : Type := {
  context_Context : Type;
  io_Reader : Type;
  io_ReadCloser : Type;
  http_Request : Type;
  http_Client : Type;
  http_DefaultClient : http_Client;
  http_NewRequestWithContext :
    context_Context -> string -> string -> option io_Reader ->
    result http_Request;
  (* req.Header.Set(key, value) *)
  Header_Set : http_Request -> string -> string -> http_Request;
  (* req.URL.Query() *)
  URL_Query : http_Request -> Values;
  (* q.Encode() *)
  Values_Encode : Values -> string;
  (* req.URL.RawQuery = s *)
  set_RawQuery : http_Request -> string -> http_Request;
  (* client.Do(req), with *http.Response reduced to what is read *)
  http_Client_Do : http_Client -> http_Request -> result (Z * io_ReadCloser)
}.

(** [json.NewDecoder(body).Decode(&x)] for each wire structure, [x]
    starting from its zero value. *)
Class Codec (N : Net) : Type := {
  Decode_latestResponse : io_ReadCloser -> result latestResponse.t;
  Decode_currenciesResponse : io_ReadCloser -> result currenciesResponse.t;
  Decode_historicalResponse : io_ReadCloser -> result historicalResponse.t;
  Decode_statusResponse : io_ReadCloser -> result statusResponse.t
}.

Section Client.

Context {N : Net} {C : Codec N}.

(** The package constant [BaseUrl], the production root of the
    service; its declaration is outside the files embedded here. *)
Variable BaseUrl : string.

(** [*http.Response], its [StatusCode] and [Body]. *)
Record Response : Type := mkResponse {
  StatusCode : Z;
  Body : io_ReadCloser
}.

(** [v2Client] is unexported and built by [NewClient] only, which
    never stores a nil [httpClient]. *)
Record v2Client : Type := mk_v2Client {
  apiKey : string;
  httpClient : http_Client;
  baseURL : string
}.

Definition doRequest (v : v2Client) (ctx : context_Context)
    (method path : string) (body : option io_Reader) (query : gomap string)
  : result Response :=
  let url := baseURL v ++ path in
  match http_NewRequestWithContext ctx method url body with
  | Err err => Err err
  | Ok req =>
    let req := Header_Set req "apikey" (apiKey v) in
    let req := Header_Set req "Content-Type" "application/json" in
    let q := URL_Query req in
    let q :=
      map_fold (fun k v q => Values_Add q k v) q (GoMap.entries query) in
    let req := set_RawQuery req (Values_Encode q) in
    match http_Client_Do (httpClient v) req with
    | Err err => Err err
    | Ok (code, stream) => Ok (mkResponse code stream)
    end
  end.

Definition Latest (v : v2Client) (ctx : context_Context)
    (request : LatestRequest.t) : LatestResponse.t * option error :=
  match
    doRequest v ctx MethodGet "latest" None
      (Some (LatestRequest.toParams request))
  with
  | Err err => (LatestResponse.zero, Some err)
  | Ok res =>
    if bool_decide (StatusCode res ≠ StatusOK) then
      if bool_decide (StatusCode res = StatusUnauthorized)
      then (LatestResponse.zero, Some ErrUnauthorized)
      else (LatestResponse.zero, Some ErrInvalidStatusCode)
    else
      match Decode_latestResponse (Body res) with
      | Err err => (LatestResponse.zero, Some err)
      | Ok decodedResponse => (toLatestResponse decodedResponse, None)
      end
  end.

Definition Currencies (v : v2Client) (ctx : context_Context)
    (request : CurrenciesRequest.t) : CurrenciesResponse.t * option error :=
  match
    doRequest v ctx MethodGet "currencies" None
      (Some (CurrenciesRequest.toParams request))
  with
  | Err err => (CurrenciesResponse.zero, Some err)
  | Ok res =>
    if bool_decide (StatusCode res ≠ StatusOK) then
      if bool_decide (StatusCode res = StatusUnauthorized)
      then (CurrenciesResponse.zero, Some ErrUnauthorized)
      else (CurrenciesResponse.zero, Some ErrInvalidStatusCode)
    else
      match Decode_currenciesResponse (Body res) with
      | Err err => (CurrenciesResponse.zero, Some err)
      | Ok decodedResponse => (toCurrenciesResponse decodedResponse, None)
      end
  end.

(** [seed] is passed on to the [range] loop of [toHistoricalResponse]. *)
Definition Historical (seed : nat) (v : v2Client) (ctx : context_Context)
    (request : HistoricalRequest.t) : HistoricalResponse.t * option error :=
  match
    doRequest v ctx MethodGet "historical" None
      (Some (HistoricalRequest.toParams request))
  with
  | Err err => (HistoricalResponse.zero, Some err)
  | Ok res =>
    if bool_decide (StatusCode res ≠ StatusOK) then
      if bool_decide (StatusCode res = StatusUnauthorized)
      then (HistoricalResponse.zero, Some ErrUnauthorized)
      else (HistoricalResponse.zero, Some ErrInvalidStatusCode)
    else
      match Decode_historicalResponse (Body res) with
      | Err err => (HistoricalResponse.zero, Some err)
      | Ok decodedResponse =>
        (toHistoricalResponse seed decodedResponse, None)
      end
  end.

Definition Status (v : v2Client) (ctx : context_Context)
  : StatusResponse.t * option error :=
  match doRequest v ctx MethodGet "status" None GoMap.nil with
  | Err err => (StatusResponse.zero, Some err)
  | Ok res =>
    if bool_decide (StatusCode res ≠ StatusOK) then
      if bool_decide (StatusCode res = StatusUnauthorized)
      then (StatusResponse.zero, Some ErrUnauthorized)
      else (StatusResponse.zero, Some ErrInvalidStatusCode)
    else
      match Decode_statusResponse (Body res) with
      | Err err => (StatusResponse.zero, Some err)
      | Ok decodedResponse => (toStatusResponse decodedResponse, None)
      end
  end.

(** [ClientOption]; a nil [HTTPClient] is [None]. *)
Record ClientOption : Type := mkClientOption {
  HTTPClient : option http_Client;
  BaseURL : string
}.

Definition WithHTTPClient (c : ClientOption) (httpClient : option http_Client)
  : ClientOption :=
  mkClientOption httpClient (BaseURL c).

Definition WithBaseURL (c : ClientOption) (baseURL : string) : ClientOption :=
  mkClientOption (HTTPClient c) baseURL.

(** [&ClientOption{}] *)
Definition Options : ClientOption := mkClientOption None "".

(** [opts] holds pointers, [None] being a nil one. *)
Definition NewClient (apiKey : string) (opts : list (option ClientOption))
  : v2Client :=
  let opt := Options in
  let opt :=
    match opts with
    | Some first :: _ => first (* len(opts) > 0 && opts[0] != nil *)
    | _ => opt
    end in
  let httpClient :=
    match HTTPClient opt with
    | None => http_DefaultClient
    | Some given => given
    end in
  let baseURL := if bool_decide (BaseURL opt = "") then BaseUrl else BaseURL opt in
  mk_v2Client apiKey httpClient baseURL.

(** *** The four operations as one family

    A [Call] is one invocation of a method of the [Client] interface,
    a [Reply] what that method returns. *)
Inductive Call : Type :=
| CallLatest (request : LatestRequest.t)
| CallCurrencies (request : CurrenciesRequest.t)
| CallHistorical (seed : nat) (request : HistoricalRequest.t)
| CallStatus.

Inductive Reply : Type :=
| ReplyLatest (response : LatestResponse.t) (err : option error)
| ReplyCurrencies (response : CurrenciesResponse.t) (err : option error)
| ReplyHistorical (response : HistoricalResponse.t) (err : option error)
| ReplyStatus (response : StatusResponse.t) (err : option error).

Definition invoke (v : v2Client) (ctx : context_Context) (c : Call) : Reply :=
  match c with
  | CallLatest request =>
    let '(response, err) := Latest v ctx request in ReplyLatest response err
  | CallCurrencies request =>
    let '(response, err) := Currencies v ctx request in
    ReplyCurrencies response err
  | CallHistorical seed request =>
    let '(response, err) := Historical seed v ctx request in
    ReplyHistorical response err
  | CallStatus =>
    let '(response, err) := Status v ctx in ReplyStatus response err
  end.

(** The zero-valued result structure of the operation paired with [err]. *)
Definition failed (c : Call) (err : error) : Reply :=
  match c with
  | CallLatest _ => ReplyLatest LatestResponse.zero (Some err)
  | CallCurrencies _ => ReplyCurrencies CurrenciesResponse.zero (Some err)
  | CallHistorical _ _ => ReplyHistorical HistoricalResponse.zero (Some err)
  | CallStatus => ReplyStatus StatusResponse.zero (Some err)
  end.

(** The endpoint path and the query map the operation hands to
    [doRequest]. *)
Definition endpoint (c : Call) : string :=
  match c with
  | CallLatest _ => "latest"
  | CallCurrencies _ => "currencies"
  | CallHistorical _ _ => "historical"
  | CallStatus => "status"
  end.

Definition query_of (c : Call) : gomap string :=
  match c with
  | CallLatest request => Some (LatestRequest.toParams request)
  | CallCurrencies request => Some (CurrenciesRequest.toParams request)
  | CallHistorical _ request => Some (HistoricalRequest.toParams request)
  | CallStatus => GoMap.nil
  end.

(** The HTTP call of the operation. *)
Definition http_call (v : v2Client) (ctx : context_Context) (c : Call)
  : result Response :=
  doRequest v ctx MethodGet (endpoint c) None (query_of c).

(** The request [doRequest] hands to the transport, built from a
    freshly constructed [req]. *)
Definition prepared (v : v2Client) (req : http_Request) (query : gomap string)
  : http_Request :=
  let req := Header_Set req "apikey" (apiKey v) in
  let req := Header_Set req "Content-Type" "application/json" in
  let q :=
    map_fold (fun k v q => Values_Add q k v) (URL_Query req)
      (GoMap.entries query) in
  set_RawQuery req (Values_Encode q).

(** The error, if any, of decoding [body] into the wire structure of
    the operation. *)
Definition decode_error (c : Call) (body : io_ReadCloser) : option error :=
  match c with
  | CallLatest _ =>
    match Decode_latestResponse body with Err e => Some e | Ok _ => None end
  | CallCurrencies _ =>
    match Decode_currenciesResponse body with Err e => Some e | Ok _ => None end
  | CallHistorical _ _ =>
    match Decode_historicalResponse body with Err e => Some e | Ok _ => None end
  | CallStatus =>
    match Decode_statusResponse body with Err e => Some e | Ok _ => None end
  end.

(** Where a failure that is not a status failure comes from: building
    the request, the transport, or decoding the body of a 200
    response. *)
Inductive arises (v : v2Client) (ctx : context_Context) (c : Call)
    (err : error) : Prop :=
| arises_request :
    http_NewRequestWithContext ctx MethodGet (baseURL v ++ endpoint c) None
    = Err err →
    arises v ctx c err
| arises_transport (req : http_Request) :
    http_NewRequestWithContext ctx MethodGet (baseURL v ++ endpoint c) None
    = Ok req →
    http_Client_Do (httpClient v) (prepared v req (query_of c)) = Err err →
    arises v ctx c err
| arises_decoding (res : Response) :
    http_call v ctx c = Ok res →
    StatusCode res = StatusOK →
    decode_error c (Body res) = Some err →
    arises v ctx c err.

End Client.

(** ** A test double in the manner of freecurrencyapi_v2_test.go

    [httptest.Server] with [baseServerHandler]: a request whose method
    or API key is wrong is turned away, any other gets status 200 and
    the canned body.  A context is [true] when it is already canceled;
    a client is the handler it reaches, or [None] when the server has
    been closed. *)
Module TestDouble.

Record request : Type := mkRequest {
  canceled : bool;
  method : string;
  url : string;
  header : gmap string string;
  rawQuery : string
}.

Definition handler : Type := request -> Z * string.

Definition baseServerHandler (wantMethod wantKey response : string) : handler :=
  fun r =>
    if bool_decide (method r ≠ wantMethod) then (405%Z, "")
    else if bool_decide (header r !! "apikey" ≠ Some wantKey) then (401%Z, "")
    else (200%Z, response).


Definition encode (q : Values) : string :=
  Join ((fun kv => fst kv ++ "=" ++ Join (snd kv) ",") <$> map_to_list q) "&".

Definition net : Net := {|
  context_Context := bool;
  io_Reader := Empty_set;
  io_ReadCloser := string;
  http_Request := request;
  http_Client := option handler;
  http_DefaultClient := None;
  http_NewRequestWithContext := fun ctx m u _ =>
    if bool_decide (m = "") then Err (library_error "net/http: invalid method")
    else Ok (mkRequest ctx m u ∅ "");
  Header_Set := fun r k x =>
    mkRequest (canceled r) (method r) (url r) (<[k := x]> (header r))
      (rawQuery r);
  URL_Query := fun _ => ∅;
  Values_Encode := encode;
  set_RawQuery := fun r s =>
    mkRequest (canceled r) (method r) (url r) (header r) s;
  http_Client_Do := fun c r =>
    if canceled r then Err (library_error "context canceled")
    else match c with
         | None => Err (library_error "connect: connection refused")
         | Some h => Ok (h r)
         end
|}.

(** A decoder that accepts the body ["{}"] alone, as the zero wire
    structure, and reports every other body as cut short. *)
Definition decode {T : Type} (zero : T) (body : @io_ReadCloser net)
  : result T :=
  if bool_decide (body = "{}" :> string) then Ok zero
  else Err (library_error "unexpected EOF").

Definition codec : Codec net := {|
  Decode_latestResponse := decode (latestResponse.mk GoMap.nil);
  Decode_currenciesResponse := decode (currenciesResponse.mk GoMap.nil);
  Decode_historicalResponse := decode (historicalResponse.mk GoMap.nil);
  Decode_statusResponse :=
    decode
      (statusResponse.mk
         (statusResponse.mkQuotas (statusResponse.mkMonth 0 0 0)))
|}.

Definition sampleApiKey : string := "sample-api-key".

(** [NewClient(key, Options().WithHTTPClient(c).WithBaseURL(u))] *)
Definition client (key : string) (h : option handler) : @v2Client net :=
  @NewClient net "https://api.freecurrencyapi.com/v1/" key
    [Some (@WithBaseURL net
             (@WithHTTPClient net (@Options net) (Some h))
             "http://127.0.0.1/v1/")].

(** The server of the tests, one that cuts its body short, and one
    that answers 500. *)
Definition serving : option handler :=
  Some (baseServerHandler "GET" sampleApiKey "{}").

Definition truncating : option handler :=
  Some (baseServerHandler "GET" sampleApiKey "{").


Definition latestCall : Call :=
  CallLatest (LatestRequest.mk "USD" ["EUR"; "GBP"]).

Definition historicalCall : Call :=
  CallHistorical 0 (HistoricalRequest.mk (GoTime.mk 2022 9 4) "" []).

Definition response (code : Z) (body : string) : @Response net :=
  @mkResponse net code body.

Definition call (v : @v2Client net) (ctx : bool) (c : Call)
  : result (@Response net) :=
  @http_call net v ctx c.

Definition run (v : @v2Client net) (ctx : bool) (c : Call) : Reply :=
  @invoke net codec v ctx c.

End TestDouble.

(** Two historical wire responses that differ in their date only. *)
Definition rates_sample : gomap float64 :=
  Some (<["AED" := 3.5%float]> {[ "AFN" := 91.75%float ]}).

Definition historical_jan1 : historicalResponse.t :=
  historicalResponse.mk (Some {[ "2022-01-01" := rates_sample ]}).

Definition historical_jan2 : historicalResponse.t :=
  historicalResponse.mk (Some {[ "2022-01-02" := rates_sample ]}).

(** What the public structures keep of the wire structures, read
    backwards. *)
Definition ofLatestResponse (r : LatestResponse.t) : latestResponse.t :=
  latestResponse.mk (LatestResponse.Rates r).

Definition ofCurrencyItem (value : CurrencyItem.t) : currencyResponseItem.t :=
  currencyResponseItem.mk
    (CurrencyItem.Symbol value)
    (CurrencyItem.Name value)
    (CurrencyItem.SymbolNative value)
    (CurrencyItem.DecimalDigits value)
    (CurrencyItem.Rounding value)
    (CurrencyItem.Code value)
    (CurrencyItem.NamePlural value).

Definition ofStatusResponse (r : StatusResponse.t) : statusResponse.t :=
  statusResponse.mk
    (statusResponse.mkQuotas
       (statusResponse.mkMonth
          (StatusItem.Total (StatusResponse.Month r))
          (StatusItem.Used (StatusResponse.Month r))
          (StatusItem.Remaining (StatusResponse.Month r)))).

(** ** The comma-separated list, read back

    [split_on sep s] cuts [s] at every [sep]; it is what a server does
    with the value of the ["currencies"] parameter. *)
Fixpoint split_on (sep : ascii) (s : string) : list string :=
  match s with
  | EmptyString => [""]
  | String a s' =>
    if bool_decide (a = sep) then "" :: split_on sep s'
    else
      match split_on sep s' with
      | [] => [String a ""]
      | w :: ws => String a w :: ws
      end
  end.

(** [s] holds no [sep]. *)
Fixpoint free_of (sep : ascii) (s : string) : bool :=
  match s with
  | EmptyString => true
  | String a s' => negb (bool_decide (a = sep)) && free_of sep s'
  end.

(** The loop [for k, v := range query { q.Add(k, v) }] of [doRequest],
    run over the entries in the order [l] in which the run-time hands
    them out. *)
Definition add_all (l : list (string * string)) (q : Values) : Values :=
  fold_left (fun q kv => Values_Add q (fst kv) (snd kv)) l q.

(** ** The operations with what they do to the response body

    [Read] is [json.NewDecoder(res.Body).Decode], [Close] the deferred
    [res.Body.Close()], which runs when the operation returns. *)
Inductive body_op : Type := Read | Close.

Section ClientBody.

Context {N : Net} {C : Codec N}.

Definition Latest_body (v : v2Client) (ctx : context_Context)
    (request : LatestRequest.t)
  : (LatestResponse.t * option error) * list body_op :=
  match
    doRequest v ctx MethodGet "latest" None
      (Some (LatestRequest.toParams request))
  with
  | Err err => ((LatestResponse.zero, Some err), [])
  | Ok res =>
    let deferred := [Close] in
    if bool_decide (StatusCode res ≠ StatusOK) then
      if bool_decide (StatusCode res = StatusUnauthorized)
      then ((LatestResponse.zero, Some ErrUnauthorized), deferred)
      else ((LatestResponse.zero, Some ErrInvalidStatusCode), deferred)
    else
      match Decode_latestResponse (Body res) with
      | Err err => ((LatestResponse.zero, Some err), Read :: deferred)
      | Ok decodedResponse =>
        ((toLatestResponse decodedResponse, None), Read :: deferred)
      end
  end.

Definition Currencies_body (v : v2Client) (ctx : context_Context)
    (request : CurrenciesRequest.t)
  : (CurrenciesResponse.t * option error) * list body_op :=
  match
    doRequest v ctx MethodGet "currencies" None
      (Some (CurrenciesRequest.toParams request))
  with
  | Err err => ((CurrenciesResponse.zero, Some err), [])
  | Ok res =>
    let deferred := [Close] in
    if bool_decide (StatusCode res ≠ StatusOK) then
      if bool_decide (StatusCode res = StatusUnauthorized)
      then ((CurrenciesResponse.zero, Some ErrUnauthorized), deferred)
      else ((CurrenciesResponse.zero, Some ErrInvalidStatusCode), deferred)
    else
      match Decode_currenciesResponse (Body res) with
      | Err err => ((CurrenciesResponse.zero, Some err), Read :: deferred)
      | Ok decodedResponse =>
        ((toCurrenciesResponse decodedResponse, None), Read :: deferred)
      end
  end.

Definition Historical_body (seed : nat) (v : v2Client)
    (ctx : context_Context) (request : HistoricalRequest.t)
  : (HistoricalResponse.t * option error) * list body_op :=
  match
    doRequest v ctx MethodGet "historical" None
      (Some (HistoricalRequest.toParams request))
  with
  | Err err => ((HistoricalResponse.zero, Some err), [])
  | Ok res =>
    let deferred := [Close] in
    if bool_decide (StatusCode res ≠ StatusOK) then
      if bool_decide (StatusCode res = StatusUnauthorized)
      then ((HistoricalResponse.zero, Some ErrUnauthorized), deferred)
      else ((HistoricalResponse.zero, Some ErrInvalidStatusCode), deferred)
    else
      match Decode_historicalResponse (Body res) with
      | Err err => ((HistoricalResponse.zero, Some err), Read :: deferred)
      | Ok decodedResponse =>
        ((toHistoricalResponse seed decodedResponse, None), Read :: deferred)
      end
  end.

Definition Status_body (v : v2Client) (ctx : context_Context)
  : (StatusResponse.t * option error) * list body_op :=
  match doRequest v ctx MethodGet "status" None GoMap.nil with
  | Err err => ((StatusResponse.zero, Some err), [])
  | Ok res =>
    let deferred := [Close] in
    if bool_decide (StatusCode res ≠ StatusOK) then
      if bool_decide (StatusCode res = StatusUnauthorized)
      then ((StatusResponse.zero, Some ErrUnauthorized), deferred)
      else ((StatusResponse.zero, Some ErrInvalidStatusCode), deferred)
    else
      match Decode_statusResponse (Body res) with
      | Err err => ((StatusResponse.zero, Some err), Read :: deferred)
      | Ok decodedResponse =>
        ((toStatusResponse decodedResponse, None), Read :: deferred)
      end
  end.

Definition invoke_body (v : v2Client) (ctx : context_Context) (c : Call)
  : Reply * list body_op :=
  match c with
  | CallLatest request =>
    let '((response, err), ops) := Latest_body v ctx request in
    (ReplyLatest response err, ops)
  | CallCurrencies request =>
    let '((response, err), ops) := Currencies_body v ctx request in
    (ReplyCurrencies response err, ops)
  | CallHistorical seed request =>
    let '((response, err), ops) := Historical_body seed v ctx request in
    (ReplyHistorical response err, ops)
  | CallStatus =>
    let '((response, err), ops) := Status_body v ctx in
    (ReplyStatus response err, ops)
  end.

(** The error component of what an operation returns. *)
Definition reply_error (r : Reply) : option error :=
  match r with
  | ReplyLatest _ err => err
  | ReplyCurrencies _ err => err
  | ReplyHistorical _ err => err
  | ReplyStatus _ err => err
  end.

(** What the operation returns once [body] has been decoded: the
    mapped wire structure with a nil error; [None] when decoding
    fails. *)
Definition decoded (c : Call) (body : io_ReadCloser) : option Reply :=
  match c with
  | CallLatest _ =>
    match Decode_latestResponse body with
    | Ok w => Some (ReplyLatest (toLatestResponse w) None)
    | Err _ => None
    end
  | CallCurrencies _ =>
    match Decode_currenciesResponse body with
    | Ok w => Some (ReplyCurrencies (toCurrenciesResponse w) None)
    | Err _ => None
    end
  | CallHistorical seed _ =>
    match Decode_historicalResponse body with
    | Ok w => Some (ReplyHistorical (toHistoricalResponse seed w) None)
    | Err _ => None
    end
  | CallStatus =>
    match Decode_statusResponse body with
    | Ok w => Some (ReplyStatus (toStatusResponse w) None)
    | Err _ => None
    end
  end.

End ClientBody.

(** A historical wire response with two dates. *)
Definition historical_two_days : historicalResponse.t :=
  historicalResponse.mk
    (Some (<["2022-01-01" := rates_sample]> {[ "2022-01-02" := GoMap.nil ]})).

(** * Properties *)

(** ** Request encoders *)

Lemma append_cons (a : ascii) (s1 s2 : string) :
  String a s1 ++ s2 = String a (s1 ++ s2).
Proof. reflexivity. Qed.

Lemma append_empty_r (s : string) : s ++ "" = s.
Proof.
  induction s as [|a s IH]; [done |]. by rewrite append_cons, IH.
Qed.

Lemma append_assoc (s1 s2 s3 : string) : (s1 ++ s2) ++ s3 = s1 ++ s2 ++ s3.
Proof.
  induction s1 as [|a s1 IH]; [done |]. by rewrite !append_cons, IH.
Qed.

Lemma fold_left_join (sep : string) (rest : list string) (e : string) :
  fold_left (fun b s => b ++ sep ++ s) rest e
  = e ++ match rest with
         | [] => ""
         | _ => sep ++ joined_in_order sep rest
         end.
Proof.
  revert e. induction rest as [|s rest IH]; intros e; simpl.
  - by rewrite append_empty_r.
  - rewrite IH. destruct rest as [|s' rest'].
    + by rewrite append_empty_r.
    + by rewrite !append_assoc.
Qed.

(** [strings.Join] puts the elements in list order with the separator
    between neighbours. *)
Lemma Join_joined_in_order (elems : list string) (sep : string) :
  Join elems sep = joined_in_order sep elems.
Proof.
  destruct elems as [|e [|s rest]]; [done | done |].
  unfold Join. by rewrite fold_left_join.
Qed.

Example join_two : Join ["EUR"; "GBP"] "," = "EUR,GBP".
Proof. reflexivity. Qed.

Example join_none : Join [] "," = "".
Proof. reflexivity. Qed.

Example format_zero : GoTime.Format_2006_01_02 GoTime.zero = "0001-01-01".
Proof. reflexivity. Qed.

Example format_sample :
  GoTime.Format_2006_01_02 (GoTime.mk 2022 9 4) = "2022-09-04".
Proof. reflexivity. Qed.

Example latest_params_sample :
  LatestRequest.toParams (LatestRequest.mk "USD" ["EUR"; "GBP"])
  = <["currencies" := "EUR,GBP"]> {[ "base_currency" := "USD" ]}.
Proof. reflexivity. Qed.

Example historical_params_unset :
  HistoricalRequest.toParams (HistoricalRequest.mk GoTime.zero "" [])
  = {[ "date" := "0001-01-01" ]}.
Proof. reflexivity. Qed.

Lemma nonempty_length {A : Type} (l : list A) : l ≠ [] → 0 < length l.
Proof. destruct l; [done | simpl; lia]. Qed.

Ltac encoder :=
  repeat case_bool_decide; simplify_map_eq; try done; try lia.

Lemma all_below_spec (n : Z) (f : Z → bool) (x : Z) :
  GoTime.all_below n f = true → (0 ≤ x < n)%Z → f x = true.
Proof.
  unfold GoTime.all_below. rewrite forallb_forall. intros Hall Hx.
  rewrite <- (Z2Nat.id x) by lia. apply Hall, in_seq. lia.
Qed.

Lemma iso_date_of_parts (y m d : string) :
  GoTime.digits_only 4 y = true →
  GoTime.digits_only 2 m = true →
  GoTime.digits_only 2 d = true →
  GoTime.is_YYYY_MM_DD (y ++ "-" ++ m ++ "-" ++ d) = true.
Proof.
  intros Hy Hm Hd.
  destruct y as [|y1 [|y2 [|y3 [|y4 [|]]]]];
    try (simpl in Hy; rewrite ?andb_false_r in Hy; discriminate).
  destruct m as [|m1 [|m2 [|]]];
    try (simpl in Hm; rewrite ?andb_false_r in Hm; discriminate).
  change (GoTime.is_YYYY_MM_DD
            (String y1 (String y2 (String y3 (String y4 (String "-"
               (String m1 (String m2 (String "-" d))))))))
          = true).
  unfold GoTime.is_YYYY_MM_DD. by rewrite Hy, Hm, Hd.
Qed.

(** For the dates of the calendar the layout gives the shape
    YYYY-MM-DD. *)
Lemma Format_2006_01_02_shape (t : GoTime.t) :
  (0 ≤ GoTime.year t ≤ 9999)%Z →
  (1 ≤ GoTime.month t ≤ 12)%Z →
  (1 ≤ GoTime.day t ≤ 31)%Z →
  GoTime.is_YYYY_MM_DD (GoTime.Format_2006_01_02 t) = true.
Proof.
  intros Hy Hm Hd. unfold GoTime.Format_2006_01_02.
  apply iso_date_of_parts.
  - apply (all_below_spec 10000%Z
             (fun x => GoTime.digits_only 4 (GoTime.appendInt x 4)));
      [by vm_compute | lia].
  - apply (all_below_spec 13%Z
             (fun x => GoTime.digits_only 2 (GoTime.appendInt x 2)));
      [by vm_compute | lia].
  - apply (all_below_spec 32%Z
             (fun x => GoTime.digits_only 2 (GoTime.appendInt x 2)));
      [by vm_compute | lia].
Qed.


(** C7: a non-empty currency list is encoded, by each of the three
    encoders that take one, as the ["currencies"] parameter whose value
    is the elements in list order with a comma between neighbours;
    [["EUR"; "GBP"]] gives ["EUR,GBP"]. *)
Theorem currencies_joined_with_comma (currencies : list string) :
  currencies ≠ [] →
  (∀ base : string,
     LatestRequest.toParams (LatestRequest.mk base currencies)
       !! "currencies"
     = Some (joined_in_order "," currencies))
  ∧ CurrenciesRequest.toParams (CurrenciesRequest.mk currencies)
      !! "currencies"
    = Some (joined_in_order "," currencies)
  ∧ (∀ (date : GoTime.t) (base : string),
       HistoricalRequest.toParams
         (HistoricalRequest.mk date base currencies) !! "currencies"
       = Some (joined_in_order "," currencies))
  ∧ (currencies = ["EUR"; "GBP"] →
     joined_in_order "," currencies = "EUR,GBP").
Proof.
  intros Hne%nonempty_length.
  repeat split.
  - intros base. unfold LatestRequest.toParams.
    rewrite Join_joined_in_order. simpl in *. encoder.
  - unfold CurrenciesRequest.toParams.
    rewrite Join_joined_in_order. simpl in *. encoder.
  - intros date base. unfold HistoricalRequest.toParams.
    rewrite Join_joined_in_order. simpl in *. encoder.
  - by intros ->.
Qed.

Lemma currencies_joined_with_comma_witness :
  ["EUR"; "GBP"] ≠ []
  ∧ CurrenciesRequest.toParams (CurrenciesRequest.mk ["EUR"; "GBP"])
    = {[ "currencies" := "EUR,GBP" ]}
  ∧ CurrenciesRequest.toParams (CurrenciesRequest.mk ["EUR"; "GBP"])
      !! "currencies"
    = Some (joined_in_order "," ["EUR"; "GBP"]).
Proof.
  split; [discriminate |]. split; [reflexivity |].
  apply (currencies_joined_with_comma ["EUR"; "GBP"]). discriminate.
Defined.

(** C8: the encoders of [LatestRequest] and [CurrenciesRequest] leave
    out what is unset: no ["base_currency"] key for an empty base
    currency, no ["currencies"] key for an empty list, and the empty
    map for a request with nothing set. *)
Theorem unset_fields_omitted :
  (∀ currencies : list string,
     LatestRequest.toParams (LatestRequest.mk "" currencies)
       !! "base_currency" = None)
  ∧ (∀ base : string,
       LatestRequest.toParams (LatestRequest.mk base []) !! "currencies"
       = None)
  ∧ LatestRequest.toParams (LatestRequest.mk "" []) = ∅
  ∧ CurrenciesRequest.toParams (CurrenciesRequest.mk []) !! "currencies"
    = None
  ∧ CurrenciesRequest.toParams (CurrenciesRequest.mk []) = ∅.
Proof.
  repeat split.
  - intros currencies. unfold LatestRequest.toParams. simpl. encoder.
  - intros base. unfold LatestRequest.toParams. simpl. encoder.
Qed.

(** ** The [range] loop's first key *)

Section RangeFirst.

Context {V : Type}.
Implicit Types (m : gomap V) (k : string) (seed : nat).

Lemma keys_empty m : GoMap.entries m = ∅ → GoMap.keys m = [].
Proof. unfold GoMap.keys. intros ->. by rewrite map_to_list_empty. Qed.

Lemma keys_singleton m k (x : V) :
  GoMap.entries m = {[ k := x ]} → GoMap.keys m = [k].
Proof. unfold GoMap.keys. intros ->. by rewrite map_to_list_singleton. Qed.

Lemma elem_of_keys m k : k ∈ GoMap.keys m ↔ is_Some (GoMap.entries m !! k).
Proof.
  unfold GoMap.keys. rewrite list_elem_of_fmap. split.
  - intros [[k' x] [-> Hin]]. apply elem_of_map_to_list in Hin. by exists x.
  - intros [x Hx]. exists (k, x). split; [done |].
    by apply elem_of_map_to_list.
Qed.

(** No entry, no iteration. *)
Lemma range_first_empty seed m :
  GoMap.entries m = ∅ → GoMap.range_first seed m = None.
Proof. intros H. unfold GoMap.range_first. by rewrite (keys_empty m H). Qed.

(** With one entry every run starts at it. *)
Lemma range_first_singleton seed m k (x : V) :
  GoMap.entries m = {[ k := x ]} → GoMap.range_first seed m = Some k.
Proof.
  intros H. unfold GoMap.range_first. rewrite (keys_singleton m k x H).
  change (length [k]) with 1. by rewrite Nat.mod_1_r.
Qed.

(** The first key is a key of the map. *)
Lemma range_first_elem seed m k :
  GoMap.range_first seed m = Some k → is_Some (GoMap.entries m !! k).
Proof.
  unfold GoMap.range_first. intros H. apply elem_of_keys.
  eapply list_elem_of_lookup_2, H.
Qed.

(** A map with an entry gives the loop a first key. *)
Lemma range_first_nonempty seed m :
  GoMap.entries m ≠ ∅ → is_Some (GoMap.range_first seed m).
Proof.
  intros Hne. unfold GoMap.range_first. apply lookup_lt_is_Some.
  apply Nat.mod_upper_bound. intros Hlen. apply Hne.
  apply map_to_list_empty_iff. unfold GoMap.keys in Hlen.
  rewrite length_fmap in Hlen. by apply nil_length_inv.
Qed.

(** Every key is the first one of some run. *)
Lemma range_first_any m k :
  is_Some (GoMap.entries m !! k) → ∃ seed, GoMap.range_first seed m = Some k.
Proof.
  intros Hk%elem_of_keys. apply list_elem_of_lookup_1 in Hk as [i Hi].
  exists i. unfold GoMap.range_first.
  rewrite Nat.mod_small; [done |]. by eapply lookup_lt_Some.
Qed.

End RangeFirst.

(** ** Response mappers *)

(** The loop of [toCurrenciesResponse] rebuilds the table entry by
    entry. *)
Lemma toCurrenciesResponse_entries (r : currenciesResponse.t) :
  toCurrenciesResponse r
  = CurrenciesResponse.mk
      (Some (toCurrencyItem <$> GoMap.entries (currenciesResponse.Data r))).
Proof.
  unfold toCurrenciesResponse. f_equal. f_equal.
  apply (map_fold_weak_ind
           (fun acc m => acc = toCurrencyItem <$> m)).
  - by rewrite fmap_empty.
  - intros k x m acc _ ->. by rewrite fmap_insert.
Qed.

Lemma ofCurrencyItem_toCurrencyItem (value : currencyResponseItem.t) :
  ofCurrencyItem (toCurrencyItem value) = value.
Proof. by destruct value. Qed.

Lemma toHistoricalResponse_empty (seed : nat) (r : historicalResponse.t) :
  GoMap.entries (historicalResponse.Data r) = ∅ →
  toHistoricalResponse seed r = HistoricalResponse.zero.
Proof.
  intros H. unfold toHistoricalResponse, GoMap.index.
  rewrite (range_first_empty seed _ H), H. by rewrite lookup_empty.
Qed.

Lemma toHistoricalResponse_pick (seed : nat) (r : historicalResponse.t) :
  GoMap.entries (historicalResponse.Data r) ≠ ∅ →
  ∃ date,
    GoMap.entries (historicalResponse.Data r) !! date
    = Some (HistoricalResponse.Rates (toHistoricalResponse seed r)).
Proof.
  intros Hne. unfold toHistoricalResponse, GoMap.index.
  destruct (range_first_nonempty seed _ Hne) as [date Hdate].
  rewrite Hdate. destruct (range_first_elem seed _ date Hdate) as [x Hx].
  exists date. by rewrite Hx.
Qed.

Example latest_sample :
  toLatestResponse (latestResponse.mk rates_sample)
  = LatestResponse.mk rates_sample.
Proof. reflexivity. Qed.

Example status_sample :
  toStatusResponse
    (statusResponse.mk
       (statusResponse.mkQuotas (statusResponse.mkMonth 300 71 229)))
  = StatusResponse.mk (StatusItem.mk 300 71 229).
Proof. reflexivity. Qed.

Example historical_sample :
  toHistoricalResponse 7 historical_jan1 = HistoricalResponse.mk rates_sample.
Proof. vm_compute. reflexivity. Qed.

(** C4, as stated, fails for the historical mapping: two wire
    responses that differ in their date have the same public result,
    so the date is lost. *)
Lemma historical_date_lost :
  historical_jan1 ≠ historical_jan2
  ∧ toHistoricalResponse 0 historical_jan1
    = toHistoricalResponse 0 historical_jan2.
Proof.
  split.
  - intros H.
    assert (GoMap.entries (historicalResponse.Data historical_jan1)
              !! "2022-01-01"
            = GoMap.entries (historicalResponse.Data historical_jan2)
                !! "2022-01-01") as Hlook by (by rewrite H).
    vm_compute in Hlook. discriminate.
  - vm_compute. reflexivity.
Qed.

(** C4, amended: the latest, currencies and status mappings keep every
    entry of the wire structure (the same keys with the same field
    values, the status fields unchanged), so that the wire entries are
    read back from the public result; the historical mapping drops the
    date and keeps the rate map stored under one date of the data, or
    the nil map when the data has no date. *)
Theorem mappers_reshape_only :
  (∀ r : latestResponse.t,
     LatestResponse.Rates (toLatestResponse r) = latestResponse.Data r
     ∧ ofLatestResponse (toLatestResponse r) = r)
  ∧ (∀ r : currenciesResponse.t,
       (∀ key : string,
          GoMap.entries (CurrenciesResponse.Currencies (toCurrenciesResponse r))
            !! key
          = toCurrencyItem
              <$> GoMap.entries (currenciesResponse.Data r) !! key)
       ∧ ofCurrencyItem
           <$> GoMap.entries
                 (CurrenciesResponse.Currencies (toCurrenciesResponse r))
         = GoMap.entries (currenciesResponse.Data r))
  ∧ (∀ r : statusResponse.t,
       toStatusResponse r
       = StatusResponse.mk
           (StatusItem.mk
              (statusResponse.Total
                 (statusResponse.Month (statusResponse.Quotas r)))
              (statusResponse.Used
                 (statusResponse.Month (statusResponse.Quotas r)))
              (statusResponse.Remaining
                 (statusResponse.Month (statusResponse.Quotas r))))
       ∧ ofStatusResponse (toStatusResponse r) = r)
  ∧ (∀ (seed : nat) (r : historicalResponse.t),
       (GoMap.entries (historicalResponse.Data r) = ∅
        ∧ HistoricalResponse.Rates (toHistoricalResponse seed r) = GoMap.nil)
       ∨ (∃ date : string,
            GoMap.entries (historicalResponse.Data r) !! date
            = Some (HistoricalResponse.Rates (toHistoricalResponse seed r)))).
Proof.
  split; [| split; [| split]].
  - intros [data]. done.
  - intros r. rewrite toCurrenciesResponse_entries. simpl. split.
    + intros key. by rewrite lookup_fmap.
    + rewrite <- map_fmap_compose. apply map_eq. intros key.
      rewrite lookup_fmap.
      destruct (GoMap.entries (currenciesResponse.Data r) !! key) as [x|];
        simpl; [| done].
      by rewrite ofCurrencyItem_toCurrencyItem.
  - intros [[[total used remaining]]]. done.
  - intros seed r.
    destruct (decide (GoMap.entries (historicalResponse.Data r) = ∅)) as [He|Hne].
    + left. split; [done |]. by rewrite (toHistoricalResponse_empty seed r He).
    + right. by apply toHistoricalResponse_pick.
Qed.

(** C5: when the data of a historical wire response holds one date,
    the public result carries the rate map of that date. *)
Theorem historical_single_date
    (seed : nat) (r : historicalResponse.t) (date : string)
    (rates : gomap float64) :
  GoMap.entries (historicalResponse.Data r) = {[ date := rates ]} →
  HistoricalResponse.Rates (toHistoricalResponse seed r) = rates.
Proof.
  intros H. unfold toHistoricalResponse, GoMap.index.
  rewrite (range_first_singleton seed _ date rates H), H. simpl.
  by rewrite lookup_singleton_eq.
Qed.

Lemma historical_single_date_witness :
  GoMap.entries (historicalResponse.Data historical_jan1)
  = {[ "2022-01-01" := rates_sample ]}
  ∧ HistoricalResponse.Rates (toHistoricalResponse 3 historical_jan1)
    = rates_sample.
Proof.
  split; [reflexivity |].
  apply (historical_single_date 3 historical_jan1 "2022-01-01" rates_sample).
  reflexivity.
Defined.

(** C9: a historical wire response without any date, its data nil or
    empty, is mapped to the zero [HistoricalResponse], whose rates are
    the nil map; the mapping is a total function, so nothing fails. *)
Theorem historical_no_date (seed : nat) (r : historicalResponse.t) :
  GoMap.entries (historicalResponse.Data r) = ∅ →
  toHistoricalResponse seed r = HistoricalResponse.zero
  ∧ HistoricalResponse.Rates (toHistoricalResponse seed r) = GoMap.nil.
Proof.
  intros H. rewrite (toHistoricalResponse_empty seed r H). done.
Qed.

Lemma historical_no_date_witness :
  GoMap.entries (historicalResponse.Data (historicalResponse.mk (Some ∅))) = ∅
  ∧ toHistoricalResponse 5 (historicalResponse.mk (Some ∅))
    = HistoricalResponse.zero
  ∧ toHistoricalResponse 5 (historicalResponse.mk GoMap.nil)
    = HistoricalResponse.zero.
Proof.
  split; [reflexivity |]. split.
  - apply (historical_no_date 5 (historicalResponse.mk (Some ∅))). reflexivity.
  - apply (historical_no_date 5 (historicalResponse.mk GoMap.nil)). reflexivity.
Defined.

Example historical_two_dates :
  let r :=
    historicalResponse.mk
      (Some (<["2022-01-01" := rates_sample]> {[ "2022-01-02" := GoMap.nil ]}))
  in
  toHistoricalResponse 0 r ≠ toHistoricalResponse 1 r.
Proof. vm_compute. discriminate. Qed.

(** ** The endpoint operations *)

Section ClientProperties.

Context {N : Net} {C : Codec N}.
Variable BaseUrl : string.
Implicit Types (v : v2Client) (ctx : context_Context) (c : Call).
Implicit Types (res : Response) (err : error).

(** [doRequest] fails with the error of the request constructor or of
    the transport, and otherwise hands back the transport's response. *)
Lemma doRequest_unfold v ctx (method path : string)
    (body : option io_Reader) (query : gomap string) :
  doRequest v ctx method path body query
  = match http_NewRequestWithContext ctx method (baseURL v ++ path) body with
    | Err err => Err err
    | Ok req =>
      match http_Client_Do (httpClient v) (prepared v req query) with
      | Err err => Err err
      | Ok (code, stream) => Ok (mkResponse code stream)
      end
    end.
Proof. reflexivity. Qed.

Lemma arises_http_call v ctx c err :
  http_call v ctx c = Err err ↔
  http_NewRequestWithContext ctx MethodGet (baseURL v ++ endpoint c) None
  = Err err
  ∨ ∃ req,
      http_NewRequestWithContext ctx MethodGet (baseURL v ++ endpoint c) None
      = Ok req
      ∧ http_Client_Do (httpClient v) (prepared v req (query_of c)) = Err err.
Proof.
  unfold http_call. rewrite doRequest_unfold.
  destruct (http_NewRequestWithContext _ _ _ _) as [req|e].
  - destruct (http_Client_Do _ _) as [[code stream]|e] eqn:Hdo.
    + split; [done |]. intros [? | (req' & Hreq & Hdo')]; [done |].
      simplify_eq. congruence.
    + split.
      * intros [= ->]. right. by exists req.
      * intros [? | (req' & Hreq & Hdo')]; [done |]. simplify_eq. congruence.
  - split.
    + intros [= ->]. by left.
    + intros [[= ->] | (req' & ? & _)]; done.
Qed.

(** How each operation goes on from the outcome of its HTTP call. *)
Lemma invoke_unfold v ctx c :
  invoke v ctx c
  = match http_call v ctx c with
    | Err err => failed c err
    | Ok res =>
      if bool_decide (StatusCode res ≠ StatusOK) then
        if bool_decide (StatusCode res = StatusUnauthorized)
        then failed c ErrUnauthorized
        else failed c ErrInvalidStatusCode
      else
        match decode_error c (Body res) with
        | Some err => failed c err
        | None => invoke v ctx c
        end
    end.
Proof.
  unfold http_call.
  destruct c as [request|request|seed request|]; simpl;
    [unfold Latest | unfold Currencies | unfold Historical | unfold Status];
    (destruct (doRequest _ _ _ _ _ _) as [res|e]; [| done]);
    repeat case_bool_decide; try done;
    match goal with
    | |- context [match ?d with Ok _ => _ | Err _ => _ end] => by destruct d
    end.
Qed.

(** C1: whichever of the four operations is called and whatever the
    request, when the HTTP call brings back a response with status 401
    the operation returns the zero-valued result paired with
    [ErrUnauthorized]; neither the body nor the decoder has a say. *)
Theorem unauthorized_on_401 v ctx c res :
  http_call v ctx c = Ok res →
  StatusCode res = StatusUnauthorized →
  invoke v ctx c = failed c ErrUnauthorized.
Proof.
  intros Hcall Hcode. rewrite invoke_unfold, Hcall, Hcode.
  by repeat case_bool_decide.
Qed.


(** C3: an error of the request constructor, of the transport, or of
    decoding the body of a 200 response reaches the caller as the very
    value that was produced, paired with the zero-valued result. *)
Theorem failures_propagate_verbatim v ctx c err :
  arises v ctx c err →
  invoke v ctx c = failed c err.
Proof.
  intros [Hreq | req Hreq Hdo | res Hcall Hcode Hdecode].
  - assert (http_call v ctx c = Err err) as Hcall
      by (apply arises_http_call; by left).
    by rewrite invoke_unfold, Hcall.
  - assert (http_call v ctx c = Err err) as Hcall
      by (apply arises_http_call; right; by exists req).
    by rewrite invoke_unfold, Hcall.
  - rewrite invoke_unfold, Hcall, Hcode, Hdecode.
    by repeat case_bool_decide.
Qed.


End ClientProperties.

Example client_custom_options :
  TestDouble.client "k" None
  = @mk_v2Client TestDouble.net "k" None "http://127.0.0.1/v1/".
Proof. reflexivity. Qed.

Example status_ok :
  TestDouble.run (TestDouble.client TestDouble.sampleApiKey TestDouble.serving)
    false CallStatus
  = ReplyStatus StatusResponse.zero None.
Proof. vm_compute. reflexivity. Qed.

Example currencies_ok_not_zero :
  TestDouble.run (TestDouble.client TestDouble.sampleApiKey TestDouble.serving)
    false (CallCurrencies (CurrenciesRequest.mk ["EUR"; "GBP"]))
  = ReplyCurrencies (CurrenciesResponse.mk (Some ∅)) None.
Proof. vm_compute. reflexivity. Qed.

Lemma unauthorized_on_401_witness :
  TestDouble.call (TestDouble.client "invalid-api-key" TestDouble.serving)
    false TestDouble.latestCall
  = Ok (TestDouble.response 401 "")
  ∧ TestDouble.run (TestDouble.client "invalid-api-key" TestDouble.serving)
      false TestDouble.latestCall
    = ReplyLatest LatestResponse.zero (Some ErrUnauthorized).
Proof.
  split; [vm_compute; reflexivity |].
  apply (@unauthorized_on_401 TestDouble.net TestDouble.codec
           (TestDouble.client "invalid-api-key" TestDouble.serving)
           false TestDouble.latestCall (TestDouble.response 401 ""));
    vm_compute; reflexivity.
Defined.


Lemma failures_propagate_verbatim_witness :
  TestDouble.run (TestDouble.client TestDouble.sampleApiKey None)
    false TestDouble.historicalCall
  = ReplyHistorical HistoricalResponse.zero
      (Some (library_error "connect: connection refused"))
  ∧ TestDouble.run
      (TestDouble.client TestDouble.sampleApiKey TestDouble.serving)
      true TestDouble.historicalCall
    = ReplyHistorical HistoricalResponse.zero
        (Some (library_error "context canceled"))
  ∧ TestDouble.run
      (TestDouble.client TestDouble.sampleApiKey TestDouble.truncating)
      false TestDouble.historicalCall
    = ReplyHistorical HistoricalResponse.zero
        (Some (library_error "unexpected EOF")).
Proof.
  split; [| split].
  - apply (@failures_propagate_verbatim TestDouble.net TestDouble.codec
             (TestDouble.client TestDouble.sampleApiKey None)
             false TestDouble.historicalCall
             (library_error "connect: connection refused")).
    eapply arises_transport; vm_compute; reflexivity.
  - apply (@failures_propagate_verbatim TestDouble.net TestDouble.codec
             (TestDouble.client TestDouble.sampleApiKey TestDouble.serving)
             true TestDouble.historicalCall
             (library_error "context canceled")).
    eapply arises_transport; vm_compute; reflexivity.
  - apply (@failures_propagate_verbatim TestDouble.net TestDouble.codec
             (TestDouble.client TestDouble.sampleApiKey TestDouble.truncating)
             false TestDouble.historicalCall
             (library_error "unexpected EOF")).
    eapply (arises_decoding _ _ _ _ (TestDouble.response 200 "{"));
      vm_compute; reflexivity.
Defined.

(** * Further properties *)

(** ** Request encoders: what is and what is not emitted *)

(** The encoders emit no parameter besides ["base_currency"],
    ["currencies"] and, for the historical request, ["date"], which is
    always there. *)
Theorem encoders_emit_known_keys_only :
  (∀ r : LatestRequest.t,
     dom (LatestRequest.toParams r)
     ⊆ ({[ "base_currency"; "currencies" ]} : gset string))
  ∧ (∀ r : CurrenciesRequest.t,
       dom (CurrenciesRequest.toParams r)
       ⊆ ({[ "currencies" ]} : gset string))
  ∧ (∀ r : HistoricalRequest.t,
       dom (HistoricalRequest.toParams r)
       ⊆ ({[ "date"; "base_currency"; "currencies" ]} : gset string)
       ∧ "date" ∈ dom (HistoricalRequest.toParams r)).
Proof.
  split; [| split].
  - intros r. unfold LatestRequest.toParams.
    repeat case_bool_decide; rewrite ?dom_insert_L, ?dom_empty_L; set_solver.
  - intros r. unfold CurrenciesRequest.toParams.
    repeat case_bool_decide; rewrite ?dom_insert_L, ?dom_empty_L; set_solver.
  - intros r. unfold HistoricalRequest.toParams.
    repeat case_bool_decide;
      rewrite ?dom_insert_L, ?dom_singleton_L; set_solver.
Qed.

(** A base currency that is set is passed on as it is, unchecked, by
    both encoders that have one. *)
Theorem base_currency_passed_through (base : string) :
  base ≠ "" →
  (∀ currencies : list string,
     LatestRequest.toParams (LatestRequest.mk base currencies)
       !! "base_currency" = Some base)
  ∧ (∀ (date : GoTime.t) (currencies : list string),
       HistoricalRequest.toParams
         (HistoricalRequest.mk date base currencies) !! "base_currency"
       = Some base).
Proof.
  intros Hbase. split.
  - intros currencies. unfold LatestRequest.toParams. simpl. encoder.
  - intros date currencies. unfold HistoricalRequest.toParams. simpl. encoder.
Qed.

Lemma base_currency_passed_through_witness :
  "usd!" ≠ ""
  ∧ LatestRequest.toParams (LatestRequest.mk "usd!" []) !! "base_currency"
    = Some "usd!".
Proof.
  split; [discriminate |].
  apply (base_currency_passed_through "usd!"). discriminate.
Defined.

(** The historical encoder leaves out an empty base currency and an
    empty currency list like the other two; with both unset only the
    date remains. *)
Theorem historical_unset_fields_omitted :
  (∀ (date : GoTime.t) (currencies : list string),
     HistoricalRequest.toParams (HistoricalRequest.mk date "" currencies)
       !! "base_currency" = None)
  ∧ (∀ (date : GoTime.t) (base : string),
       HistoricalRequest.toParams (HistoricalRequest.mk date base [])
         !! "currencies" = None)
  ∧ (∀ date : GoTime.t,
       HistoricalRequest.toParams (HistoricalRequest.mk date "" [])
       = {[ "date" := GoTime.Format_2006_01_02 date ]}).
Proof.
  split; [| split].
  - intros date currencies. unfold HistoricalRequest.toParams. simpl. encoder.
  - intros date base. unfold HistoricalRequest.toParams. simpl. encoder.
  - intros date. reflexivity.
Qed.

(** For a date of the calendar (years 0 to 9999) the ["date"]
    parameter has the shape YYYY-MM-DD. *)
Theorem historical_date_shape (r : HistoricalRequest.t) :
  (0 ≤ GoTime.year (HistoricalRequest.Date r) ≤ 9999)%Z →
  (1 ≤ GoTime.month (HistoricalRequest.Date r) ≤ 12)%Z →
  (1 ≤ GoTime.day (HistoricalRequest.Date r) ≤ 31)%Z →
  ∃ s : string,
    HistoricalRequest.toParams r !! "date" = Some s
    ∧ GoTime.is_YYYY_MM_DD s = true.
Proof.
  intros Hy Hm Hd. exists (GoTime.Format_2006_01_02 (HistoricalRequest.Date r)).
  split.
  - unfold HistoricalRequest.toParams. encoder.
  - by apply Format_2006_01_02_shape.
Qed.

Lemma historical_date_shape_witness :
  ∃ s : string,
    HistoricalRequest.toParams
      (HistoricalRequest.mk (GoTime.mk 2022 9 4) "USD" ["EUR"]) !! "date"
    = Some s
    ∧ GoTime.is_YYYY_MM_DD s = true.
Proof.
  apply (historical_date_shape
           (HistoricalRequest.mk (GoTime.mk 2022 9 4) "USD" ["EUR"]));
    simpl; lia.
Defined.

(** Beyond year 9999 the year takes five digits and the shape is
    lost. *)
Example format_year_10000 :
  GoTime.Format_2006_01_02 (GoTime.mk 10000 1 1) = "10000-01-01"
  ∧ GoTime.is_YYYY_MM_DD (GoTime.Format_2006_01_02 (GoTime.mk 10000 1 1))
    = false.
Proof. split; reflexivity. Qed.

(** ** The comma-separated currency list *)

Lemma joined_in_order_cons (sep e : string) (rest : list string) :
  rest ≠ [] →
  joined_in_order sep (e :: rest) = e ++ sep ++ joined_in_order sep rest.
Proof. destruct rest; [done | reflexivity]. Qed.

Lemma split_on_nonempty (sep : ascii) (s : string) : split_on sep s ≠ [].
Proof.
  induction s as [|a s IH]; simpl; [done |].
  case_bool_decide; [done |]. by destruct (split_on sep s).
Qed.

(** A prefix without separator is glued to the first piece. *)
Lemma split_on_prefix (sep : ascii) (e s : string) :
  free_of sep e = true →
  split_on sep (e ++ s)
  = match split_on sep s with
    | [] => [e]
    | w :: ws => (e ++ w) :: ws
    end.
Proof.
  induction e as [|a e IH]; intros Hfree.
  - change ("" ++ s) with s. destruct (split_on sep s) eqn:Hs; [| done].
    by destruct (split_on_nonempty sep s).
  - simpl in Hfree. apply andb_true_iff in Hfree as [Ha He].
    apply negb_true_iff, bool_decide_eq_false in Ha.
    rewrite append_cons. simpl. rewrite bool_decide_false by done.
    rewrite (IH He). destruct (split_on sep s) eqn:Hs; [| done].
    by destruct (split_on_nonempty sep s).
Qed.

Lemma split_on_sep (sep : ascii) (s : string) :
  split_on sep (String sep s) = "" :: split_on sep s.
Proof. simpl. by rewrite bool_decide_true. Qed.

Lemma split_on_free (sep : ascii) (e : string) :
  free_of sep e = true → split_on sep e = [e].
Proof.
  intros Hfree. rewrite <- (append_empty_r e) at 1.
  rewrite (split_on_prefix sep e "" Hfree). simpl.
  by rewrite append_empty_r.
Qed.

Lemma split_on_joined (currencies : list string) :
  currencies ≠ [] →
  Forall (fun s => free_of "," s = true) currencies →
  split_on "," (joined_in_order "," currencies) = currencies.
Proof.
  induction currencies as [|e rest IH]; [done |]. intros _ Hall.
  apply Forall_cons in Hall as [He Hrest].
  destruct rest as [|e' rest'].
  - simpl. by apply split_on_free.
  - rewrite joined_in_order_cons by done.
    rewrite (split_on_prefix "," e _ He).
    change ("," ++ ?s) with (String "," s).
    rewrite split_on_sep, IH by done. by rewrite append_empty_r.
Qed.

(** Cutting the ["currencies"] value at its commas gives back the list
    of the request, as long as the list is not empty and no code
    holds a comma. *)
Theorem currencies_read_back (currencies : list string) :
  currencies ≠ [] →
  Forall (fun s => free_of "," s = true) currencies →
  split_on "," (Join currencies ",") = currencies
  ∧ (split_on ","
       <$> CurrenciesRequest.toParams (CurrenciesRequest.mk currencies)
             !! "currencies")
    = Some currencies.
Proof.
  intros Hne Hall.
  assert (split_on "," (Join currencies ",") = currencies) as Hback.
  { rewrite Join_joined_in_order. by apply split_on_joined. }
  split; [done |].
  unfold CurrenciesRequest.toParams. simpl.
  rewrite bool_decide_true by (by apply nonempty_length).
  rewrite lookup_insert_eq. simpl. by rewrite Hback.
Qed.

Lemma currencies_read_back_witness :
  split_on "," (Join ["EUR"; "GBP"; "JPY"] ",") = ["EUR"; "GBP"; "JPY"].
Proof.
  apply (currencies_read_back ["EUR"; "GBP"; "JPY"]); [discriminate |].
  repeat constructor.
Defined.

Lemma joined_in_order_app (sep : string) (l1 l2 : list string) :
  l1 ≠ [] → l2 ≠ [] →
  joined_in_order sep (l1 ++ l2)%list
  = joined_in_order sep l1 ++ sep ++ joined_in_order sep l2.
Proof.
  intros Hl1 Hl2. induction l1 as [|e l1 IH]; [done |].
  destruct l1 as [|e' l1'].
  - simpl app. by rewrite joined_in_order_cons.
  - change ((e :: e' :: l1') ++ l2)%list with (e :: ((e' :: l1') ++ l2)%list).
    rewrite !joined_in_order_cons by done.
    rewrite IH by done. by rewrite !append_assoc.
Qed.

(** Nothing is escaped: a code that holds a comma is encoded like the
    two codes on either side of that comma, so the two requests cannot
    be told apart by the server. *)
Theorem comma_in_code_not_escaped (before after : list string) (a b : string) :
  CurrenciesRequest.toParams
    (CurrenciesRequest.mk (before ++ [(a ++ "," ++ b)%string] ++ after)%list)
  = CurrenciesRequest.toParams
      (CurrenciesRequest.mk (before ++ [a; b] ++ after)%list).
Proof.
  assert (∀ l : list string,
            joined_in_order "," ((a ++ "," ++ b) :: l)
            = joined_in_order "," (a :: b :: l)) as Hhead.
  { intros [|e l]; [done |].
    rewrite !joined_in_order_cons by done. by rewrite !append_assoc. }
  assert (joined_in_order "," (before ++ [(a ++ "," ++ b)%string] ++ after)%list
          = joined_in_order "," (before ++ [a; b] ++ after)%list) as Hjoin.
  { destruct before as [|e before'].
    - apply Hhead.
    - rewrite !(joined_in_order_app "," (e :: before')) by done.
      do 2 f_equal. apply Hhead. }
  unfold CurrenciesRequest.toParams. cbn [CurrenciesRequest.Currencies].
  rewrite !Join_joined_in_order, Hjoin.
  rewrite !bool_decide_true; [done | |]; rewrite !length_app; simpl; lia.
Qed.

Example comma_in_code_sample :
  CurrenciesRequest.toParams (CurrenciesRequest.mk ["EUR,GBP"])
  = CurrenciesRequest.toParams (CurrenciesRequest.mk ["EUR"; "GBP"]).
Proof. apply (comma_in_code_not_escaped [] [] "EUR" "GBP"). Qed.

(** ** The query of [doRequest] *)

Lemma Values_Add_lookup (q : Values) (key value k : string) :
  Values_Add q key value !! k
  = if bool_decide (key = k)
    then Some (default [] (q !! key) ++ [value])%list
    else q !! k.
Proof.
  unfold Values_Add, Values in *. case_bool_decide as Hk.
  - subst. by rewrite lookup_insert_eq.
  - by rewrite lookup_insert_ne.
Qed.

Lemma add_all_lookup (l : list (string * string)) (q : Values) (k : string) :
  NoDup l.*1 →
  add_all l q !! k
  = match (list_to_map l : gmap string string) !! k with
    | Some value => Some (default [] (q !! k) ++ [value])%list
    | None => q !! k
    end.
Proof.
  revert q. induction l as [|[key value] l IH]; intros q Hnodup; [done |].
  apply NoDup_cons in Hnodup as [Hfresh Hnodup].
  change (add_all ((key, value) :: l) q)
    with (add_all l (Values_Add q key value)).
  rewrite (IH _ Hnodup), list_to_map_cons, Values_Add_lookup.
  cbn [fst snd]. case_bool_decide as Hk.
  - subst k. rewrite lookup_insert_eq.
    by rewrite (not_elem_of_list_to_map_1 l key Hfresh).
  - by rewrite lookup_insert_ne.
Qed.

(** In whatever order the run-time hands out the entries of [query],
    the loop of [doRequest] ends with the same values: each parameter
    is appended once to what the URL already carried under its name,
    and every other name is left alone. *)
Theorem query_added_in_any_order
    (l : list (string * string)) (query : gmap string string) (q : Values) :
  l ≡ₚ map_to_list query →
  add_all l q = map_fold (fun k v q => Values_Add q k v) q query
  ∧ ∀ k : string,
      add_all l q !! k
      = match query !! k with
        | Some value => Some (default [] (q !! k) ++ [value])%list
        | None => q !! k
        end.
Proof.
  intros Hperm.
  assert (NoDup l.*1) as Hnodup.
  { rewrite Hperm. apply NoDup_fst_map_to_list. }
  assert ((list_to_map l : gmap string string) = query) as Hmap.
  { rewrite (list_to_map_proper l (map_to_list query) Hnodup Hperm).
    apply list_to_map_to_list. }
  assert (∀ k : string,
            add_all l q !! k
            = match query !! k with
              | Some value => Some (default [] (q !! k) ++ [value])%list
              | None => q !! k
              end) as Hlookup.
  { intros k. rewrite (add_all_lookup l q k Hnodup). by rewrite Hmap. }
  split; [| exact Hlookup].
  apply map_eq. intros k. rewrite Hlookup. symmetry.
  apply (map_fold_weak_ind
           (fun (acc : Values) (m : gmap string string) =>
              acc !! k
              = match m !! k with
                | Some value => Some (default [] (q !! k) ++ [value])%list
                | None => q !! k
                end)).
  - by rewrite lookup_empty.
  - intros key value m acc Hfresh Hacc. rewrite Values_Add_lookup.
    case_bool_decide as Hk.
    + subst k. rewrite lookup_insert_eq. rewrite Hfresh in Hacc.
      by rewrite Hacc.
    + by rewrite lookup_insert_ne.
Qed.

Lemma query_added_in_any_order_witness :
  add_all [("currencies", "EUR"); ("base_currency", "USD")]
    {[ "currencies" := ["GBP"] ]}
  = add_all [("base_currency", "USD"); ("currencies", "EUR")]
      {[ "currencies" := ["GBP"] ]}
  ∧ add_all [("currencies", "EUR"); ("base_currency", "USD")]
      {[ "currencies" := ["GBP"] ]} !! "currencies"
    = Some ["GBP"; "EUR"].
Proof.
  pose proof
    (query_added_in_any_order
       [("currencies", "EUR"); ("base_currency", "USD")]
       (LatestRequest.toParams (LatestRequest.mk "USD" ["EUR"]))
       {[ "currencies" := ["GBP"] ]}) as H1.
  pose proof
    (query_added_in_any_order
       [("base_currency", "USD"); ("currencies", "EUR")]
       (LatestRequest.toParams (LatestRequest.mk "USD" ["EUR"]))
       {[ "currencies" := ["GBP"] ]}) as H2.
  destruct H1 as [H1 H1'].
  { vm_compute. apply perm_swap || reflexivity. }
  destruct H2 as [H2 _].
  { vm_compute. apply perm_swap || reflexivity. }
  split.
  - by rewrite H1, H2.
  - rewrite H1'. reflexivity.
Defined.

(** ** Response mappers: sizes, nil maps and the choice of a date *)

(** [toCurrenciesResponse] always allocates its table: the result is
    never the nil map, even for nil data, and it has as many entries
    as the data, under the same codes. *)
Theorem currencies_table_allocated (r : currenciesResponse.t) :
  is_Some (CurrenciesResponse.Currencies (toCurrenciesResponse r))
  ∧ GoMap.len (CurrenciesResponse.Currencies (toCurrenciesResponse r))
    = GoMap.len (currenciesResponse.Data r)
  ∧ dom (GoMap.entries
           (CurrenciesResponse.Currencies (toCurrenciesResponse r)))
    = dom (GoMap.entries (currenciesResponse.Data r)).
Proof.
  rewrite toCurrenciesResponse_entries. simpl. split; [by eexists |].
  unfold GoMap.len. simpl. split.
  - apply map_size_fmap.
  - apply dom_fmap_L.
Qed.

(** [toLatestResponse] hands on the data map itself, so that nil data
    gives the zero [LatestResponse] and nothing else does. *)
Theorem latest_zero_iff_nil_data (r : latestResponse.t) :
  toLatestResponse r = LatestResponse.zero
  ↔ latestResponse.Data r = GoMap.nil.
Proof.
  destruct r as [data]. unfold toLatestResponse, LatestResponse.zero. simpl.
  split; [by intros [= ->] | by intros ->].
Qed.

(** With several dates in the data, which one is returned is up to
    the iteration order: for every date of the data there is a run
    that returns its rates. *)
Theorem historical_any_date_possible
    (r : historicalResponse.t) (date : string) (rates : gomap float64) :
  GoMap.entries (historicalResponse.Data r) !! date = Some rates →
  ∃ seed : nat,
    HistoricalResponse.Rates (toHistoricalResponse seed r) = rates.
Proof.
  intros Hdate.
  destruct (range_first_any (historicalResponse.Data r) date) as [seed Hseed];
    [by eexists |].
  exists seed. unfold toHistoricalResponse, GoMap.index.
  rewrite Hseed. simpl. by rewrite Hdate.
Qed.

Lemma historical_any_date_possible_witness :
  (∃ seed : nat,
     HistoricalResponse.Rates (toHistoricalResponse seed historical_two_days)
     = rates_sample)
  ∧ (∃ seed : nat,
       HistoricalResponse.Rates (toHistoricalResponse seed historical_two_days)
       = GoMap.nil).
Proof.
  split.
  - apply (historical_any_date_possible historical_two_days "2022-01-01").
    reflexivity.
  - apply (historical_any_date_possible historical_two_days "2022-01-02").
    reflexivity.
Defined.

Lemma size_one_singleton {V : Type} (m : gmap string V) :
  size m = 1 → ∃ (k : string) (x : V), m = {[ k := x ]}.
Proof.
  intros Hsize. rewrite <- (list_to_map_to_list m).
  rewrite <- length_map_to_list in Hsize.
  destruct (map_to_list m) as [|[k x] [|? ?]]; simplify_eq/=.
  exists k, x. apply insert_empty.
Qed.

(** With at most one date in the data the iteration order has no
    say. *)
Theorem historical_order_irrelevant_below_two_dates
    (r : historicalResponse.t) (seed1 seed2 : nat) :
  (GoMap.len (historicalResponse.Data r) ≤ 1)%nat →
  toHistoricalResponse seed1 r = toHistoricalResponse seed2 r.
Proof.
  unfold GoMap.len. intros Hlen.
  destruct (decide (GoMap.entries (historicalResponse.Data r) = ∅)) as [He|Hne].
  - by rewrite !(toHistoricalResponse_empty _ r He).
  - assert (size (GoMap.entries (historicalResponse.Data r)) = 1) as Hone.
    { apply map_size_non_empty_iff in Hne. lia. }
    apply size_one_singleton in Hone as (date & rates & Hsingle).
    unfold toHistoricalResponse.
    by rewrite !(range_first_singleton _ _ date rates Hsingle).
Qed.

Lemma historical_order_irrelevant_below_two_dates_witness :
  toHistoricalResponse 0 historical_jan1 = toHistoricalResponse 1 historical_jan1.
Proof.
  apply (historical_order_irrelevant_below_two_dates historical_jan1 0 1).
  vm_compute. lia.
Defined.

(** ** The endpoint operations: success, the error invariant and the
    response body *)

Section ClientOutcomes.

Context {N : Net} {C : Codec N}.
Variable BaseUrl : string.
Implicit Types (v : v2Client) (ctx : context_Context) (c : Call).
Implicit Types (res : Response) (err : error) (reply : Reply).

Ltac operations c :=
  unfold http_call;
  destruct c as [request|request|seed request|]; simpl;
  [unfold Latest | unfold Currencies | unfold Historical | unfold Status].

Lemma reply_error_failed c err : reply_error (failed c err) = Some err.
Proof. by destruct c. Qed.

(** Decoding either gives the reply of the success path or an error. *)
Lemma decoded_or_error c (body : io_ReadCloser) :
  match decoded c body with
  | Some reply => decode_error c body = None ∧ reply_error reply = None
  | None => ∃ err, decode_error c body = Some err
  end.
Proof.
  destruct c; simpl;
    match goal with
    | |- context [match ?d with Ok _ => _ | Err _ => _ end] =>
      destruct d; simpl; eauto
    end.
Qed.

(** Every path through an operation. *)
Lemma invoke_cases v ctx c :
  invoke v ctx c
  = match http_call v ctx c with
    | Err err => failed c err
    | Ok res =>
      if bool_decide (StatusCode res ≠ StatusOK) then
        if bool_decide (StatusCode res = StatusUnauthorized)
        then failed c ErrUnauthorized
        else failed c ErrInvalidStatusCode
      else
        match decoded c (Body res), decode_error c (Body res) with
        | Some reply, _ => reply
        | None, Some err => failed c err
        | None, None => failed c ErrInvalidStatusCode
        end
    end.
Proof.
  operations c;
    (destruct (doRequest _ _ _ _ _ _) as [res|e]; [| done]);
    repeat case_bool_decide; try done;
    match goal with
    | |- context [match ?d with Ok _ => _ | Err _ => _ end] => by destruct d
    end.
Qed.

(** On a 200 response whose body decodes, each operation returns the
    mapped wire structure and a nil error. *)
Theorem success_returns_mapped_body v ctx c res reply :
  http_call v ctx c = Ok res →
  StatusCode res = StatusOK →
  decoded c (Body res) = Some reply →
  invoke v ctx c = reply ∧ reply_error reply = None.
Proof.
  intros Hcall Hcode Hdecoded. rewrite invoke_cases, Hcall, Hdecoded.
  rewrite bool_decide_false by (by intros []). split; [done |].
  pose proof (decoded_or_error c (Body res)) as Hcases.
  rewrite Hdecoded in Hcases. apply Hcases.
Qed.

(** Whenever an operation returns an error, the result beside it is
    the zero value: no partial result ever escapes. *)
Theorem error_implies_zero_result v ctx c err :
  reply_error (invoke v ctx c) = Some err →
  invoke v ctx c = failed c err.
Proof.
  rewrite invoke_cases.
  destruct (http_call v ctx c) as [res|e].
  - repeat case_bool_decide;
      try (rewrite reply_error_failed; by intros [= ->]).
    pose proof (decoded_or_error c (Body res)) as Hcases.
    destruct (decoded c (Body res)) as [reply|].
    + destruct Hcases as [_ Hnil]. by rewrite Hnil.
    + destruct Hcases as [e ->]. rewrite reply_error_failed. by intros [= ->].
  - rewrite reply_error_failed. by intros [= ->].
Qed.

(** An operation returns a nil error exactly when the HTTP call
    brought back a 200 response whose body decodes. *)
Theorem nil_error_iff_decoded_200 v ctx c :
  reply_error (invoke v ctx c) = None
  ↔ ∃ res,
      http_call v ctx c = Ok res
      ∧ StatusCode res = StatusOK
      ∧ decode_error c (Body res) = None.
Proof.
  rewrite invoke_cases.
  destruct (http_call v ctx c) as [res|e].
  - pose proof (decoded_or_error c (Body res)) as Hcases.
    case_bool_decide as Hcode.
    + split.
      * case_bool_decide; by rewrite reply_error_failed.
      * intros (res' & [= <-] & Hok & _). by destruct Hcode.
    + assert (StatusCode res = StatusOK) as Hok
        by (destruct (decide (StatusCode res = StatusOK)); done).
      destruct (decoded c (Body res)) as [reply|].
      * destruct Hcases as [Hnone Hnil]. split; [| done].
        intros _. by exists res.
      * destruct Hcases as [e He]. rewrite He, reply_error_failed.
        split; [done |]. intros (res' & [= <-] & _ & Hnone). congruence.
  - rewrite reply_error_failed. split; [done | by intros (? & ? & _)].
Qed.

(** For the currencies operation the zero result and the error go
    together: a success always carries an allocated table. *)
Theorem currencies_zero_iff_error v ctx (request : CurrenciesRequest.t) :
  (Currencies v ctx request).1 = CurrenciesResponse.zero
  ↔ is_Some (Currencies v ctx request).2.
Proof.
  unfold Currencies.
  destruct (doRequest _ _ _ _ _ _) as [res|e]; simpl; [| by split; eauto].
  repeat case_bool_decide; simpl; try (by split; eauto).
  destruct (Decode_currenciesResponse _) as [w|e]; simpl; [| by split; eauto].
  rewrite toCurrenciesResponse_entries. split; [done | by intros [? ?]].
Qed.

(** The body of a response is closed once, as the last thing, on every
    path on which the HTTP call brought one back; it is read, once and
    before that, for a 200 response only; and without a response
    nothing is touched.  The results are those of the operations. *)
Theorem body_closed_on_every_path v ctx c :
  (invoke_body v ctx c).1 = invoke v ctx c
  ∧ (invoke_body v ctx c).2
    = match http_call v ctx c with
      | Err _ => []
      | Ok res =>
        if bool_decide (StatusCode res = StatusOK)
        then [Read; Close] else [Close]
      end.
Proof.
  operations c;
    [ unfold Latest_body | unfold Currencies_body
    | unfold Historical_body | unfold Status_body ];
    (destruct (doRequest _ _ _ _ _ _) as [res|e]; [| done]);
    repeat case_bool_decide; try done;
    match goal with
    | |- context [match ?d with Ok _ => _ | Err _ => _ end] => by destruct d
    end.
Qed.

(** A request with nothing set adds no parameter to the query, like
    the status operation, which passes a nil map: the three send the
    same request. *)
Theorem unset_request_sends_no_parameter v (req : http_Request) :
  prepared v req (query_of (CallLatest (LatestRequest.mk "" [])))
  = prepared v req (query_of CallStatus)
  ∧ prepared v req (query_of (CallCurrencies (CurrenciesRequest.mk [])))
    = prepared v req (query_of CallStatus)
  ∧ prepared v req (query_of CallStatus)
    = set_RawQuery
        (Header_Set (Header_Set req "apikey" (apiKey v))
           "Content-Type" "application/json")
        (Values_Encode
           (URL_Query
              (Header_Set (Header_Set req "apikey" (apiKey v))
                 "Content-Type" "application/json"))).
Proof.
  unfold prepared. simpl. unfold GoMap.entries. simpl.
  by rewrite map_fold_empty.
Qed.

(** ** [NewClient] with options *)

(** A non-nil HTTP client and a non-empty base URL set through the
    builders, in either order, are the ones the client gets; the API
    key is stored as given. *)
Theorem NewClient_custom_options
    (apiKey url : string) (given : http_Client)
    (more : list (option ClientOption)) :
  url ≠ "" →
  NewClient BaseUrl apiKey
    (Some (WithBaseURL (WithHTTPClient Options (Some given)) url) :: more)
  = mk_v2Client apiKey given url
  ∧ NewClient BaseUrl apiKey
      (Some (WithHTTPClient (WithBaseURL Options url) (Some given)) :: more)
    = mk_v2Client apiKey given url.
Proof.
  intros Hurl. unfold NewClient. simpl.
  by rewrite bool_decide_false.
Qed.

(** An empty base URL cannot be configured: as long as the package's
    [BaseUrl] is not empty, the base URL of a client never is,
    whatever the options. *)
Theorem NewClient_baseURL_nonempty
    (key : string) (opts : list (option ClientOption)) :
  BaseUrl ≠ "" →
  baseURL (NewClient BaseUrl key opts) ≠ ""
  ∧ apiKey (NewClient BaseUrl key opts) = key.
Proof.
  intros Hbase. unfold NewClient. simpl. split; [| done].
  by case_bool_decide.
Qed.

End ClientOutcomes.

Example status_body_ops :
  @invoke_body TestDouble.net TestDouble.codec
    (TestDouble.client TestDouble.sampleApiKey TestDouble.serving)
    false CallStatus
  = (ReplyStatus StatusResponse.zero None, [Read; Close])
  ∧ @invoke_body TestDouble.net TestDouble.codec
      (TestDouble.client "invalid-api-key" TestDouble.serving)
      false CallStatus
    = (ReplyStatus StatusResponse.zero (Some ErrUnauthorized), [Close])
  ∧ @invoke_body TestDouble.net TestDouble.codec
      (TestDouble.client TestDouble.sampleApiKey None)
      false CallStatus
    = (ReplyStatus StatusResponse.zero
         (Some (library_error "connect: connection refused")), []).
Proof. repeat split; vm_compute; reflexivity. Qed.

Lemma success_returns_mapped_body_witness :
  TestDouble.call
    (TestDouble.client TestDouble.sampleApiKey TestDouble.serving)
    false TestDouble.latestCall
  = Ok (TestDouble.response 200 "{}")
  ∧ TestDouble.run
      (TestDouble.client TestDouble.sampleApiKey TestDouble.serving)
      false TestDouble.latestCall
    = ReplyLatest (toLatestResponse (latestResponse.mk GoMap.nil)) None.
Proof.
  split; [vm_compute; reflexivity |].
  apply (@success_returns_mapped_body TestDouble.net TestDouble.codec
           (TestDouble.client TestDouble.sampleApiKey TestDouble.serving)
           false TestDouble.latestCall (TestDouble.response 200 "{}")
           (ReplyLatest (toLatestResponse (latestResponse.mk GoMap.nil))
              None));
    vm_compute; reflexivity.
Defined.

Lemma error_implies_zero_result_witness :
  TestDouble.run
    (TestDouble.client TestDouble.sampleApiKey TestDouble.truncating)
    false TestDouble.historicalCall
  = ReplyHistorical HistoricalResponse.zero
      (Some (library_error "unexpected EOF")).
Proof.
  apply (@error_implies_zero_result TestDouble.net TestDouble.codec
           (TestDouble.client TestDouble.sampleApiKey TestDouble.truncating)
           false TestDouble.historicalCall
           (library_error "unexpected EOF")).
  vm_compute. reflexivity.
Defined.

Lemma NewClient_custom_options_witness :
  "http://127.0.0.1/v1/" ≠ ""
  ∧ TestDouble.client TestDouble.sampleApiKey TestDouble.serving
    = @mk_v2Client TestDouble.net TestDouble.sampleApiKey TestDouble.serving
        "http://127.0.0.1/v1/".
Proof.
  split; [discriminate |].
  apply (@NewClient_custom_options TestDouble.net
           "https://api.freecurrencyapi.com/v1/" TestDouble.sampleApiKey
           "http://127.0.0.1/v1/" TestDouble.serving []).
  discriminate.
Defined.

Lemma NewClient_baseURL_nonempty_witness :
  "https://api.freecurrencyapi.com/v1/" ≠ ""
  ∧ @baseURL TestDouble.net
      (@NewClient TestDouble.net "https://api.freecurrencyapi.com/v1/"
         TestDouble.sampleApiKey
         [Some (@WithBaseURL TestDouble.net (@Options TestDouble.net) "")])
    ≠ "".
Proof.
  split; [discriminate |].
  apply (@NewClient_baseURL_nonempty TestDouble.net
           "https://api.freecurrencyapi.com/v1/" TestDouble.sampleApiKey
           [Some (@WithBaseURL TestDouble.net (@Options TestDouble.net) "")]).
  discriminate.
Defined.
